(** * Camply front-end shell: session gates, theme resolution and provider
      composition.

    The repository is a Next.js landing page.  Its components are pure
    functions from the two context values (theme, session) to markup, so
    they are embedded as Rocq functions from a context record to a markup
    tree.  The pieces whose bodies are not among the repository's sources
    (the theme provider wrapper and the identity provider with its gates)
    are modelled from the specification and marked as such. *)

From Stdlib Require Import String Ascii List Bool Arith Lia.
From stdpp Require Import gmap strings.
Import ListNotations.

#[local] Set Warnings "-register-all".

Local Open Scope string_scope.
Local Open Scope list_scope.

(** ** Markup *)

(** The two render slots of the identity provider. *)
Inductive Gate : Type :=
| GSignedIn
| GSignedOut.

(** A rendered tree.  [Host] is an HTML element with its attributes,
    [Widget] a component whose body is not part of the sources (its props and
    children are kept, its own output is not expanded), [Slot] the instance
    of a session gate that let its children through; a closed gate renders
    nothing at all. *)
Inductive Markup : Type :=
| Text (s : string)
| Host (tag : string) (attrs : list (string * string)) (children : list Markup)
| Widget (name : string) (props : list (string * string)) (children : list Markup)
| Slot (g : Gate) (children : list Markup).

Definition Gate_eqb (a b : Gate) : bool :=
  match a, b with
  | GSignedIn, GSignedIn | GSignedOut, GSignedOut => true
  | _, _ => false
  end.

(** Number of mounted widgets called [name] in a tree. *)
Fixpoint mounts (name : string) (m : Markup) : nat :=
  match m with
  | Text _ => 0
  | Host _ _ cs => list_sum (map (mounts name) cs)
  | Widget n _ cs =>
      (if String.eqb n name then 1 else 0) + list_sum (map (mounts name) cs)
  | Slot _ cs => list_sum (map (mounts name) cs)
  end.

Definition mountsIn (name : string) (ms : list Markup) : nat :=
  list_sum (map (mounts name) ms).

(** Does the text [s] occur as a text node of the tree? *)
Fixpoint hasText (s : string) (m : Markup) : bool :=
  match m with
  | Text t => String.eqb t s
  | Host _ _ cs => existsb (hasText s) cs
  | Widget _ _ cs => existsb (hasText s) cs
  | Slot _ cs => existsb (hasText s) cs
  end.

Definition hasTextIn (s : string) (ms : list Markup) : bool :=
  existsb (hasText s) ms.

(** The gates that are open in a tree, in document order. *)
Fixpoint views (m : Markup) : list Gate :=
  match m with
  | Text _ => []
  | Host _ _ cs => concat (map views cs)
  | Widget _ _ cs => concat (map views cs)
  | Slot g cs => g :: concat (map views cs)
  end.

Definition viewsIn (ms : list Markup) : list Gate := concat (map views ms).

(** Is the view of gate [g] rendered somewhere in the trees? *)
Definition rendersView (g : Gate) (ms : list Markup) : bool :=
  existsb (Gate_eqb g) (viewsIn ms).

(** Exactly one of the signed-in and the signed-out view is rendered. *)
Definition exactlyOneView (ms : list Markup) : Prop :=
  xorb (rendersView GSignedIn ms) (rendersView GSignedOut ms) = true.

(** Is a widget called [name] mounted somewhere in the trees? *)
Definition renders (name : string) (ms : list Markup) : bool :=
  Nat.ltb 0 (mountsIn name ms).

(** The tree with every session slot cut out: what a component renders
    outside its session-dependent parts. *)
Fixpoint outsideSlots (m : Markup) : list Markup :=
  match m with
  | Text s => [Text s]
  | Host t a cs => [Host t a (concat (map outsideSlots cs))]
  | Widget n p cs => [Widget n p (concat (map outsideSlots cs))]
  | Slot _ _ => []
  end.

Definition outsideSlotsIn (ms : list Markup) : list Markup :=
  concat (map outsideSlots ms).

(** ** Theme state *)

Module Theme.

(** The host environment's colour-scheme signal. *)
Inductive Scheme : Type :=
| Light
| Dark.

Definition schemeName (h : Scheme) : string :=
  match h with
  | Light => "light"
  | Dark => "dark"
  end.

(** Props of [<ThemeProvider ...>], as the caller writes them. *)
Record ThemeProviderProps : Type := {
  attribute : string;
  defaultTheme : string;
  enableSystem : bool;
  disableTransitionOnChange : bool
}.

(** What [useTheme()] hands to a consumer. *)
Record ThemeContext : Type := {
  theme : string;
  resolvedTheme : string
}.

(** Persisted client-side storage: key to theme-mode string. *)
Definition storageKey : string := "theme".

Definition validMode (s : string) : bool :=
  String.eqb s "light" || String.eqb s "dark" || String.eqb s "system".

(** Modelled from the spec: the body of the theme provider
    ([providers/ThemeProvider] and the theme library behind it) is not in
    the sources.  Per the specification a mode is one of light, dark and
    system, and an invalid mode value fails closed to system. *)
Definition normalizeMode (s : string) : string :=
  if validMode s then s else "system".

(** Modelled from the spec: the resolved mode of a concrete mode is that
    mode, and the resolved mode of system is the host signal. *)
Definition resolveMode (host : Scheme) (mode : string) : string :=
  if String.eqb mode "light" then "light"
  else if String.eqb mode "dark" then "dark"
  else schemeName host.

(** Modelled from the spec: the preference is initialised from persisted
    storage, or from the default when nothing is persisted. *)
Definition loadMode (props : ThemeProviderProps)
    (storage : gmap string string) : string :=
  match storage !! storageKey with
  | Some s => normalizeMode s
  | None => normalizeMode (defaultTheme props)
  end.

(** Modelled from the spec: [setMode] writes the preference to persisted
    storage on every change; consumers then re-render from it. *)
Definition setMode (mode : string)
    (storage : gmap string string) : gmap string string :=
  <[storageKey := normalizeMode mode]> storage.

(** Modelled from the spec: the provider exposes the current mode and its
    resolved mode to all descendants. *)
Definition themeContext (props : ThemeProviderProps) (host : Scheme)
    (storage : gmap string string) : ThemeContext :=
  let mode := loadMode props storage in
  {| theme := mode; resolvedTheme := resolveMode host mode |}.

End Theme.

(** ** Session state *)

Module Session.

(** What the external identity service answers to "current session, if
    any", including the ways the check can go wrong. *)
Inductive SessionCheck : Type :=
| Verified (userId : string)
| NoSession
| CheckFailed
| CheckTimedOut
| ServiceUnreachable.

(** The session as this system observes it. *)
Record AuthSession : Type := {
  signedIn : bool;
  identity : option string
}.

(** Modelled from the spec: the identity provider's body is not in the
    sources.  Only a verified session counts as signed in; a failed or
    timed-out check and an unreachable service default to the
    unauthenticated slot. *)
Definition observe (r : SessionCheck) : AuthSession :=
  match r with
  | Verified u => {| signedIn := true; identity := Some u |}
  | NoSession | CheckFailed | CheckTimedOut | ServiceUnreachable =>
      {| signedIn := false; identity := None |}
  end.

(** The answers that are no answer: the check failed, timed out, or the
    service could not be reached. *)
Definition inconclusive (r : SessionCheck) : bool :=
  match r with
  | CheckFailed | CheckTimedOut | ServiceUnreachable => true
  | Verified _ | NoSession => false
  end.

End Session.

Import Theme Session.

(** ** Contexts and the external environment *)

(** The two context values a descendant can read. *)
Record Ctx : Type := {
  themeCtx : ThemeContext;
  sessionCtx : AuthSession
}.

(** A component body: markup as a function of the contexts in scope. *)
Definition View : Type := Ctx -> list Markup.

(** Everything the shell reads from outside: persisted storage, the host
    scheme signal and the identity service's answer. *)
Record Env : Type := {
  storage : gmap string string;
  hostScheme : Scheme;
  sessionCheck : SessionCheck
}.

(** [useTheme()] reads the theme context in scope. *)
Definition useTheme (c : Ctx) : ThemeContext := themeCtx c.

(** Modelled from the spec: the slot "rendered only when authenticated". *)
Definition SignedIn (children : View) : View :=
  fun c => if signedIn (sessionCtx c) then [Slot GSignedIn (children c)] else [].

(** Modelled from the spec: the slot "rendered only when unauthenticated". *)
Definition SignedOut (children : View) : View :=
  fun c => if signedIn (sessionCtx c) then [] else [Slot GSignedOut (children c)].

(** Modelled from the spec: the theme provider exposes the theme context,
    derived from its props, the host signal and persisted storage, to its
    children. *)
Definition ThemeProvider {R : Type} (props : ThemeProviderProps) (env : Env)
    (children : ThemeContext -> R) : R :=
  children (themeContext props (hostScheme env) (storage env)).

(** Modelled from the spec: the identity provider wraps its children and
    exposes the observed session to them. *)
Definition ClerkProvider {R : Type} (env : Env)
    (children : AuthSession -> R) : R :=
  children (observe (sessionCheck env)).

(** ** Widgets whose bodies are outside the sources

    They are mounted with the props and children the caller gives them. *)

Definition Button (variant size : string) (children : list Markup) : Markup :=
  Widget "Button" [("variant", variant); ("size", size)] children.

Definition UserButton : Markup := Widget "UserButton" [] [].

Definition SignInButton (children : list Markup) : Markup :=
  Widget "SignInButton" [] children.

Definition SignUpButton (children : list Markup) : Markup :=
  Widget "SignUpButton" [] children.

Definition ToggleTheme : Markup := Widget "ToggleTheme" [] [].

(** ** Components of the repository *)

(** [components/Navbar]: reads [resolvedTheme] from the theme context, then
    returns the bar: brand title, session slot, theme toggle. *)
Definition Navbar : View :=
  fun c =>
    let resolvedTheme := resolvedTheme (useTheme c) in
    [Host "nav"
       [("className",
         "bg-gradient-to-r from-blue-50 dark:from-ebony to-background w-full flex justify-between items-center p-4 border-b  h-24")]
       [Host "div"
          [("className", "text-3xl font-bold text-blue-600 cursor-pointer")]
          [Text "Camply"];
        Host "div" [("className", "flex gap-4")]
          (SignedIn (fun _ => [UserButton]) c
           ++ SignedOut
                (fun _ => [SignInButton [Button "blue" "lg" [Text "Sign In"]]]) c
           ++ [ToggleTheme])]].

Definition heroHeadline : string :=
  "Transform Your Approach to Campaign Management".

Definition heroParagraph : string :=
  "Revolutionize the way you manage tasks, boost productivity, and achieve seamless collaboration with innovative project management strategies.".

(** [components/HeroSection]: headline, paragraph, and a sign-up button in
    the signed-out slot. *)
Definition HeroSection : View :=
  fun c =>
    [Host "div"
       [("className", " p-4 flex flex-col gap-4 justify-center items-center")]
       ([Host "div"
           [("className",
             "text-2xl text-center md:text-4xl lg:text-6xl font-bold bg-gradient-to-r from-blue-800 to-blue-500 bg-clip-text text-transparent")]
           [Text heroHeadline];
         Host "p"
           [("className",
             "md:w-sm text-sm text-center text-jet  dark:text-gray-300 md:text-xl lg:text-2xl")]
           [Text heroParagraph]]
        ++ SignedOut
             (fun _ => [SignUpButton [Button "blue" "lg" [Text "Get Started"]]]) c)].

(** [app/page]: the home page. *)
Definition Home : View :=
  fun c =>
    [Host "div"
       [("className",
         "bg-radial from-background to-blue-50 dark:from-ebony dark:to-background flex flex-col min-h-[32rem] items-center justify-center w-full")]
       (HeroSection c)].

(** The props [AppProviders] passes to the theme provider. *)
Definition appThemeProps : ThemeProviderProps :=
  {| attribute := "class";
     defaultTheme := "system";
     enableSystem := true;
     disableTransitionOnChange := true |}.

(** [providers/AppProviders]: the theme provider around the identity
    provider around the children. *)
Definition AppProviders (children : View) (env : Env) : list Markup :=
  ThemeProvider appThemeProps env (fun th =>
    ClerkProvider env (fun au =>
      children {| themeCtx := th; sessionCtx := au |})).

(** The class names the font loader generates for the two fonts. *)
Record Fonts : Type := {
  geistSans_variable : string;
  geistMono_variable : string
}.

Record Metadata : Type := {
  title : string;
  description : string
}.

Definition metadata : Metadata :=
  {| title := "Camply"; description := "Generated by create next app" |}.

(** [app/layout]: the document shell. *)
Definition RootLayout (fonts : Fonts) (children : View) (env : Env)
    : list Markup :=
  [Host "html" [("lang", "en"); ("suppressHydrationWarning", "true")]
     [Host "body"
        [("className",
          geistSans_variable fonts +:+ " " +:+ geistMono_variable fonts
          +:+ " antialiased")]
        (AppProviders
           (fun c => Navbar c ++ [Host "div" [("className", "")] (children c)])
           env)]].

(** The context value [AppProviders] passes down, spelled out: the theme
    provider's value and the identity provider's value for [env]
    (see [AppProviders_children]). *)
Definition providedCtx (env : Env) : Ctx :=
  {| themeCtx := themeContext appThemeProps (hostScheme env) (storage env);
     sessionCtx := observe (sessionCheck env) |}.

(** ** The element trees and the scope of the providers

    The components above take the contexts as an argument.  Here the shell
    is kept as the element tree it returns, provider elements included, and
    the contexts are pushed down it: a context is in scope exactly below
    its provider. *)

Module Tree.

Inductive Provider : Type :=
| PTheme
| PSession.

(** The contexts in scope at a point of the tree, and the providers above
    that point, outermost first. *)
Record Scope : Type := {
  themeScope : option ThemeContext;
  sessionScope : option AuthSession;
  enclosing : list Provider
}.

(** Above every provider: no context at all. *)
Definition noScope : Scope :=
  {| themeScope := None; sessionScope := None; enclosing := [] |}.

(** An element tree.  [EComponent] is a component of the repository that
    reads the contexts ([<Navbar />], the page); the two provider elements
    are kept as nodes. *)
Inductive Element : Type :=
| EText (s : string)
| EHost (tag : string) (attrs : list (string * string))
    (children : list Element)
| EThemeProvider (props : ThemeProviderProps) (children : list Element)
| EClerkProvider (children : list Element)
| EComponent (name : string) (body : View).

(** Modelled from the spec: below a theme provider the theme context is the
    provider's value; the session context in scope is left as it is. *)
Definition belowTheme (props : ThemeProviderProps) (env : Env) (sc : Scope)
    : Scope :=
  {| themeScope :=
       Some (themeContext props (hostScheme env) (storage env));
     sessionScope := sessionScope sc;
     enclosing := enclosing sc ++ [PTheme] |}.

(** Modelled from the spec: below the identity provider the session context
    is the observed session; the theme context in scope is left as it is. *)
Definition belowSession (env : Env) (sc : Scope) : Scope :=
  {| themeScope := themeScope sc;
     sessionScope := Some (observe (sessionCheck env));
     enclosing := enclosing sc ++ [PSession] |}.

(** The components of a tree, in document order, each with the scope it is
    rendered in. *)
Fixpoint componentScopes (env : Env) (sc : Scope) (e : Element)
    : list (string * Scope) :=
  match e with
  | EText _ => []
  | EHost _ _ cs => concat (map (componentScopes env sc) cs)
  | EThemeProvider props cs =>
      concat (map (componentScopes env (belowTheme props env sc)) cs)
  | EClerkProvider cs =>
      concat (map (componentScopes env (belowSession env sc)) cs)
  | EComponent name _ => [(name, sc)]
  end.

(** The renderings of a list of children, put together; there is none as
    soon as one child has none. *)
Definition collect (rs : list (option (list Markup))) : option (list Markup) :=
  fold_right
    (fun r acc =>
       match r, acc with
       | Some a, Some b => Some (a ++ b)
       | _, _ => None
       end)
    (Some []) rs.

(** Rendering a tree.  A provider element renders its children, and adds no
    markup of its own.  Modelled from the spec: a component gets the two
    context values in scope; where one of them is not in scope there is no
    rendering. *)
Fixpoint render (env : Env) (sc : Scope) (e : Element)
    : option (list Markup) :=
  match e with
  | EText s => Some [Text s]
  | EHost tag attrs cs =>
      match collect (map (render env sc) cs) with
      | Some ms => Some [Host tag attrs ms]
      | None => None
      end
  | EThemeProvider props cs =>
      collect (map (render env (belowTheme props env sc)) cs)
  | EClerkProvider cs =>
      collect (map (render env (belowSession env sc)) cs)
  | EComponent _ body =>
      match themeScope sc, sessionScope sc with
      | Some th, Some au => Some (body {| themeCtx := th; sessionCtx := au |})
      | _, _ => None
      end
  end.

(** [providers/AppProviders], as the element it returns. *)
Definition AppProviders (children : list Element) : Element :=
  EThemeProvider appThemeProps [EClerkProvider children].

(** [app/layout], as the element it returns. *)
Definition RootLayout (fonts : Fonts) (children : list Element) : Element :=
  EHost "html" [("lang", "en"); ("suppressHydrationWarning", "true")]
    [EHost "body"
       [("className",
         geistSans_variable fonts +:+ " " +:+ geistMono_variable fonts
         +:+ " antialiased")]
       [AppProviders
          [EComponent "Navbar" Navbar;
           EHost "div" [("className", "")] children]]].

(** Both contexts are in scope, and the two outermost providers are the
    theme provider and, inside it, the identity provider. *)
Definition covered (sc : Scope) : Prop :=
  is_Some (themeScope sc)
  /\ is_Some (sessionScope sc)
  /\ exists inner : list Provider, enclosing sc = PTheme :: PSession :: inner.

End Tree.

(** ** Small executions *)

Definition ctxOf (t : ThemeContext) (s : AuthSession) : Ctx :=
  {| themeCtx := t; sessionCtx := s |}.

Definition lightTheme : ThemeContext :=
  {| theme := "light"; resolvedTheme := "light" |}.

Definition alice : AuthSession :=
  {| signedIn := true; identity := Some "user_alice" |}.

Definition anonymous : AuthSession :=
  {| signedIn := false; identity := None |}.

Definition sampleFonts : Fonts :=
  {| geistSans_variable := "geist_sans_variable";
     geistMono_variable := "geist_mono_variable" |}.

Definition unreachableEnv : Env :=
  {| storage := ∅; hostScheme := Light; sessionCheck := ServiceUnreachable |}.

Definition darkPersistedEnv : Env :=
  {| storage := {[ storageKey := "dark" ]};
     hostScheme := Light;
     sessionCheck := NoSession |}.

(** ** Further observers of a page *)

(** [1] when the widget [w] is the one called [name], else [0]. *)
Definition named (w name : string) : nat :=
  if String.eqb w name then 1 else 0.

(** The attribute lists of the [tag] elements of a tree, in document order
    (an element before its children). *)
Fixpoint hostAttrs (tag : string) (m : Markup) : list (list (string * string)) :=
  match m with
  | Text _ => []
  | Host t a cs =>
      (if String.eqb t tag then [a] else [])
      ++ concat (map (hostAttrs tag) cs)
  | Widget _ _ cs => concat (map (hostAttrs tag) cs)
  | Slot _ cs => concat (map (hostAttrs tag) cs)
  end.

Definition hostAttrsIn (tag : string) (ms : list Markup)
    : list (list (string * string)) :=
  concat (map (hostAttrs tag) ms).

(** The value of attribute [key], if the element has it. *)
Fixpoint attr (key : string) (attrs : list (string * string)) : option string :=
  match attrs with
  | [] => None
  | (k, v) :: rest => if String.eqb k key then Some v else attr key rest
  end.

(** The [className] of the first [body] element of a page. *)
Definition bodyClassName (page : list Markup) : option string :=
  match hostAttrsIn "body" page with
  | a :: _ => attr "className" a
  | [] => None
  end.

Definition isSpace (c : Ascii.ascii) : bool := Ascii.eqb c " "%char.

Fixpoint noSpace (s : string) : bool :=
  match s with
  | EmptyString => true
  | String c r => negb (isSpace c) && noSpace r
  end.

(** A class attribute cut at every space. *)
Fixpoint tokens (s : string) : list string :=
  match s with
  | EmptyString => [EmptyString]
  | String c r =>
      if isSpace c then EmptyString :: tokens r
      else match tokens r with
           | t :: ts => String c t :: ts
           | [] => [String c EmptyString]
           end
  end.

(** The classes a class attribute names: its non-empty tokens. *)
Definition classList (s : string) : list string :=
  List.filter (fun t => negb (String.eqb t "")) (tokens s).

Definition darkTheme : ThemeContext :=
  {| theme := "system"; resolvedTheme := "dark" |}.

Definition bob : AuthSession :=
  {| signedIn := true; identity := Some "user_bob" |}.

Example Navbar_alice_slot :
  viewsIn (Navbar (ctxOf lightTheme alice)) = [GSignedIn]
  /\ mountsIn "UserButton" (Navbar (ctxOf lightTheme alice)) = 1
  /\ mountsIn "SignInButton" (Navbar (ctxOf lightTheme alice)) = 0.
Proof. repeat split. Qed.

Example Navbar_anonymous_slot :
  viewsIn (Navbar (ctxOf lightTheme anonymous)) = [GSignedOut]
  /\ mountsIn "UserButton" (Navbar (ctxOf lightTheme anonymous)) = 0
  /\ mountsIn "SignInButton" (Navbar (ctxOf lightTheme anonymous)) = 1.
Proof. repeat split. Qed.

Example HeroSection_alice_slot :
  viewsIn (HeroSection (ctxOf lightTheme alice)) = [].
Proof. reflexivity. Qed.

Example Home_anonymous_signup :
  renders "SignUpButton" (Home (ctxOf lightTheme anonymous)) = true
  /\ renders "SignUpButton" (Home (ctxOf lightTheme alice)) = false.
Proof. split; reflexivity. Qed.

Example setMode_dark_resolves :
  resolvedTheme (themeContext appThemeProps Light (setMode "dark" ∅)) = "dark".
Proof. reflexivity. Qed.

Example empty_storage_follows_host :
  themeContext appThemeProps Dark ∅
  = {| theme := "system"; resolvedTheme := "dark" |}.
Proof. reflexivity. Qed.

(** ** Shared facts *)

Lemma AppProviders_children (children : View) (env : Env) :
  AppProviders children env = children (providedCtx env).
Proof. reflexivity. Qed.

Lemma normalizeMode_valid (s : string) :
  validMode s = true -> normalizeMode s = s.
Proof. intros H. unfold normalizeMode. now rewrite H. Qed.

Lemma normalizeMode_invalid (s : string) :
  validMode s = false -> normalizeMode s = "system".
Proof. intros H. unfold normalizeMode. now rewrite H. Qed.

Lemma resolveMode_concrete (host : Scheme) (mode : string) :
  resolveMode host mode = "light" \/ resolveMode host mode = "dark".
Proof.
  unfold resolveMode.
  destruct (String.eqb mode "light"); [now left |].
  destruct (String.eqb mode "dark"); [now right |].
  destruct host; [now left | now right].
Qed.

Lemma loadMode_persisted (props : ThemeProviderProps)
    (st : gmap string string) (s : string) :
  st !! storageKey = Some s -> loadMode props st = normalizeMode s.
Proof. intros H. unfold loadMode. now rewrite H. Qed.

Lemma loadMode_setMode (props : ThemeProviderProps)
    (st : gmap string string) (s : string) :
  loadMode props (setMode s st) = normalizeMode s.
Proof.
  unfold loadMode, setMode. rewrite lookup_insert_eq.
  destruct (validMode s) eqn:E.
  - now rewrite !(normalizeMode_valid s E).
  - now rewrite (normalizeMode_invalid s E).
Qed.

Lemma Navbar_views (c : Ctx) :
  viewsIn (Navbar c)
  = [if signedIn (sessionCtx c) then GSignedIn else GSignedOut].
Proof. unfold Navbar, SignedIn, SignedOut. now destruct (signedIn (sessionCtx c)). Qed.

Lemma HeroSection_views (c : Ctx) :
  viewsIn (HeroSection c)
  = if signedIn (sessionCtx c) then [] else [GSignedOut].
Proof. unfold HeroSection, SignedOut. now destruct (signedIn (sessionCtx c)). Qed.

(** ** Session gates in the Navbar and the Hero *)

(** C1, as stated, fails on the Hero: with a signed-in session the Hero
    renders neither a signed-in view nor a signed-out view, since its only
    gate is the signed-out one and that gate is closed. *)
Lemma C1_hero_signed_in_renders_neither :
  ~ exactlyOneView (HeroSection (ctxOf lightTheme alice)).
Proof. unfold exactlyOneView. cbn. discriminate. Qed.

(** C1, amended: for every session state the Navbar's slot renders exactly
    one of the signed-in and the signed-out view; the Hero has no signed-in
    view at all and renders its signed-out view exactly when the session is
    signed out, so it never renders both and renders neither when signed
    in. *)
Theorem C1_exactly_one_view_navbar_at_most_one_hero (c : Ctx) :
  exactlyOneView (Navbar c)
  /\ rendersView GSignedIn (HeroSection c) = false
  /\ rendersView GSignedOut (HeroSection c) = negb (signedIn (sessionCtx c)).
Proof.
  unfold exactlyOneView, rendersView.
  rewrite Navbar_views, HeroSection_views.
  now destruct (signedIn (sessionCtx c)).
Qed.

(** C2: for every session state the Navbar mounts the user-identity control
    (UserButton) if and only if the session is signed in, and the sign-in
    trigger (SignInButton) if and only if it is signed out. *)
Theorem C2_navbar_user_button_iff_signed_in (c : Ctx) :
  renders "UserButton" (Navbar c) = signedIn (sessionCtx c)
  /\ renders "SignInButton" (Navbar c) = negb (signedIn (sessionCtx c)).
Proof.
  unfold renders, Navbar, SignedIn, SignedOut.
  now destruct (signedIn (sessionCtx c)).
Qed.

(** C3: for every session state the Hero renders its headline and its
    paragraph, both outside any session slot, and it mounts the sign-up
    call-to-action if and only if the session is signed out. *)
Theorem C3_hero_static_copy_and_signed_out_cta (c : Ctx) :
  hasTextIn heroHeadline (outsideSlotsIn (HeroSection c)) = true
  /\ hasTextIn heroParagraph (outsideSlotsIn (HeroSection c)) = true
  /\ hasTextIn heroHeadline (HeroSection c) = true
  /\ hasTextIn heroParagraph (HeroSection c) = true
  /\ renders "SignUpButton" (HeroSection c) = negb (signedIn (sessionCtx c)).
Proof.
  unfold renders, HeroSection, SignedOut.
  now destruct (signedIn (sessionCtx c)).
Qed.

(** C4: when the session check fails, times out, or the identity service is
    unreachable, the session is observed as signed out: the Navbar under the
    provider shell mounts the sign-in trigger and not the user-identity
    control, and the whole home page shows no signed-in view. *)
Theorem C4_inconclusive_check_is_signed_out (fonts : Fonts) (env : Env) :
  inconclusive (sessionCheck env) = true ->
  signedIn (observe (sessionCheck env)) = false
  /\ renders "SignInButton" (AppProviders Navbar env) = true
  /\ renders "UserButton" (AppProviders Navbar env) = false
  /\ rendersView GSignedIn (RootLayout fonts Home env) = false
  /\ renders "UserButton" (RootLayout fonts Home env) = false.
Proof.
  intros H.
  assert (Hs : signedIn (observe (sessionCheck env)) = false)
    by (destruct (sessionCheck env); [discriminate H | discriminate H | | |];
        reflexivity).
  split; [exact Hs |].
  unfold RootLayout. rewrite !AppProviders_children.
  unfold renders, rendersView, Home, HeroSection, Navbar, SignedIn, SignedOut.
  cbn [sessionCtx providedCtx]. rewrite Hs. repeat split.
Qed.

Lemma C4_witness_unreachable :
  inconclusive (sessionCheck unreachableEnv) = true
  /\ renders "SignInButton" (AppProviders Navbar unreachableEnv) = true
  /\ renders "UserButton" (AppProviders Navbar unreachableEnv) = false.
Proof.
  split; [reflexivity |].
  pose proof (C4_inconclusive_check_is_signed_out sampleFonts unreachableEnv
                eq_refl) as (_ & Hin & Hout & _).
  split; assumption.
Defined.

(** ** Theme resolution *)

(** C5: for every mode in {light, dark}, the resolved mode equals the chosen
    mode exactly, whatever the host signal: both right after [setMode] and
    when the mode is found in persisted storage, and this is the value a
    descendant of the provider shell reads through [useTheme]. *)
Theorem C5_resolved_is_identity_on_concrete_modes
    (mode : string) (env : Env) (st : gmap string string) :
  mode = "light" \/ mode = "dark" ->
  resolvedTheme
    (themeContext appThemeProps (hostScheme env) (setMode mode st)) = mode
  /\ (storage env !! storageKey = Some mode ->
      resolvedTheme (useTheme (providedCtx env)) = mode
      /\ forall children : View,
           AppProviders children env = children (providedCtx env)).
Proof.
  intros Hmode. split.
  - unfold themeContext; cbn [resolvedTheme]. rewrite loadMode_setMode.
    destruct Hmode as [-> | ->]; now destruct (hostScheme env).
  - intros Hst. split; [| intros children; apply AppProviders_children].
    unfold useTheme, providedCtx, themeContext; cbn [themeCtx resolvedTheme].
    rewrite (loadMode_persisted _ _ _ Hst).
    destruct Hmode as [-> | ->]; now destruct (hostScheme env).
Qed.

Lemma C5_witness_dark :
  resolvedTheme
    (themeContext appThemeProps (hostScheme darkPersistedEnv)
       (setMode "dark" ∅)) = "dark"
  /\ resolvedTheme (useTheme (providedCtx darkPersistedEnv)) = "dark".
Proof.
  destruct (C5_resolved_is_identity_on_concrete_modes
              "dark" darkPersistedEnv ∅ (or_intror eq_refl)) as [Hset Hget].
  split; [exact Hset |].
  apply Hget. reflexivity.
Defined.

(** C6: for every mode value outside {light, dark, system}, setting it is
    the same as setting system, a persisted value of that kind is read as
    system, and in both cases the provider hands its children the system
    default: mode system, resolved to the host signal.  Resolution is a
    total function, so there is no input on which it fails. *)
Theorem C6_invalid_mode_falls_back_to_system
    (bad : string) (env : Env) (st : gmap string string) :
  validMode bad = false ->
  setMode bad st = setMode "system" st
  /\ themeContext appThemeProps (hostScheme env) (setMode bad st)
     = {| theme := "system"; resolvedTheme := schemeName (hostScheme env) |}
  /\ (storage env !! storageKey = Some bad ->
      useTheme (providedCtx env)
      = {| theme := "system"; resolvedTheme := schemeName (hostScheme env) |}).
Proof.
  intros Hbad. split; [| split].
  - unfold setMode. now rewrite (normalizeMode_invalid _ Hbad).
  - unfold themeContext. rewrite loadMode_setMode.
    now rewrite (normalizeMode_invalid _ Hbad).
  - intros Hst. unfold useTheme, providedCtx, themeContext; cbn [themeCtx].
    rewrite (loadMode_persisted _ _ _ Hst).
    now rewrite (normalizeMode_invalid _ Hbad).
Qed.

Lemma C6_witness_purple :
  validMode "purple" = false
  /\ setMode "purple" ∅ = setMode "system" ∅
  /\ themeContext appThemeProps Dark (setMode "purple" ∅)
     = {| theme := "system"; resolvedTheme := "dark" |}.
Proof.
  split; [reflexivity |].
  destruct (C6_invalid_mode_falls_back_to_system "purple"
              {| storage := ∅; hostScheme := Dark; sessionCheck := NoSession |}
              ∅ eq_refl) as (Hset & Hctx & _).
  split; [exact Hset | exact Hctx].
Defined.

(** C8: whatever the provider's props, the host signal and the persisted
    storage (so for every chosen mode, system included, and after any
    sequence of [setMode]), the resolved theme is light or dark and is never
    system; in particular so is the value the Navbar reads under the
    provider shell. *)
Theorem C8_resolved_theme_is_concrete :
  (forall (props : ThemeProviderProps) (host : Scheme)
          (st : gmap string string),
      (resolvedTheme (themeContext props host st) = "light"
       \/ resolvedTheme (themeContext props host st) = "dark")
      /\ resolvedTheme (themeContext props host st) <> "system")
  /\ (forall env : Env,
        (resolvedTheme (useTheme (providedCtx env)) = "light"
         \/ resolvedTheme (useTheme (providedCtx env)) = "dark")
        /\ resolvedTheme (useTheme (providedCtx env)) <> "system").
Proof.
  assert (H : forall props host st,
             (resolvedTheme (themeContext props host st) = "light"
              \/ resolvedTheme (themeContext props host st) = "dark")
             /\ resolvedTheme (themeContext props host st) <> "system").
  { intros props host st. unfold themeContext; cbn [resolvedTheme].
    destruct (resolveMode_concrete host (loadMode props st)) as [E | E];
      rewrite E; split; auto; discriminate. }
  split; [exact H |].
  intros env. apply H.
Qed.

(** ** Provider composition *)

Lemma covered_belowTheme (props : ThemeProviderProps) (env : Env)
    (sc : Tree.Scope) :
  Tree.covered sc -> Tree.covered (Tree.belowTheme props env sc).
Proof.
  intros (_ & Hs & inner & Hp). repeat split.
  - now eexists.
  - exact Hs.
  - exists (inner ++ [Tree.PTheme]). cbn. now rewrite Hp.
Qed.

Lemma covered_belowSession (env : Env) (sc : Tree.Scope) :
  Tree.covered sc -> Tree.covered (Tree.belowSession env sc).
Proof.
  intros (Ht & _ & inner & Hp). repeat split.
  - exact Ht.
  - now eexists.
  - exists (inner ++ [Tree.PSession]). cbn. now rewrite Hp.
Qed.

(** Once both contexts are in scope they stay in scope all the way down,
    whatever the tree below contains. *)
Lemma componentScopes_covered (env : Env) :
  forall (e : Tree.Element) (sc : Tree.Scope),
    Tree.covered sc ->
    Forall (fun p => Tree.covered (snd p)) (Tree.componentScopes env sc e).
Proof.
  fix IH 1.
  intros [s | tag attrs cs | props cs | cs | name body] sc Hsc;
    cbn [Tree.componentScopes].
  - constructor.
  - induction cs as [| c cs IHcs]; cbn [map concat]; [constructor |].
    apply Forall_app. split; [apply IH, Hsc | exact IHcs].
  - induction cs as [| c cs IHcs]; cbn [map concat]; [constructor |].
    apply Forall_app. split; [apply IH, covered_belowTheme, Hsc | exact IHcs].
  - induction cs as [| c cs IHcs]; cbn [map concat]; [constructor |].
    apply Forall_app.
    split; [apply IH, covered_belowSession, Hsc | exact IHcs].
  - constructor; [exact Hsc | constructor].
Qed.

Lemma collect_is_Some (rs : list (option (list Markup))) :
  Forall is_Some rs -> is_Some (Tree.collect rs).
Proof.
  induction 1 as [| r rs [a Ha] _ [b Hb]]; cbn.
  - now eexists.
  - rewrite Ha. unfold Tree.collect in Hb. rewrite Hb. now eexists.
Qed.

(** With both contexts in scope every tree has a rendering. *)
Lemma render_in_scope (env : Env) :
  forall (e : Tree.Element) (sc : Tree.Scope),
    is_Some (Tree.themeScope sc) ->
    is_Some (Tree.sessionScope sc) ->
    is_Some (Tree.render env sc e).
Proof.
  fix IH 1.
  intros [s | tag attrs cs | props cs | cs | name body] sc Ht Hs;
    cbn [Tree.render].
  - now eexists.
  - assert (H : is_Some (Tree.collect (map (Tree.render env sc) cs))).
    { apply collect_is_Some.
      induction cs as [| c cs IHcs]; cbn [map]; constructor;
        [now apply IH | exact IHcs]. }
    destruct H as [ms ->]. now eexists.
  - apply collect_is_Some.
    induction cs as [| c cs IHcs]; cbn [map]; constructor;
      [apply IH; cbn; [now eexists | exact Hs] | exact IHcs].
  - apply collect_is_Some.
    induction cs as [| c cs IHcs]; cbn [map]; constructor;
      [apply IH; cbn; [exact Ht | now eexists] | exact IHcs].
  - destruct Ht as [th ->], Hs as [au ->]. now eexists.
Qed.

(** Without the shell a component has no context to read, and with the
    theme provider alone it still lacks the session: there is no
    rendering. *)
Example Navbar_outside_providers (env : Env) :
  Tree.render env Tree.noScope (Tree.EComponent "Navbar" Navbar) = None
  /\ Tree.render env Tree.noScope
       (Tree.EThemeProvider appThemeProps [Tree.EComponent "Navbar" Navbar])
     = None.
Proof. split; reflexivity. Qed.

(** With the identity provider around the theme provider the contexts are
    both in scope, and the chain of providers is the other way round. *)
Example Navbar_under_other_nesting (env : Env) :
  map (fun p => Tree.enclosing (snd p))
    (Tree.componentScopes env Tree.noScope
       (Tree.EClerkProvider
          [Tree.EThemeProvider appThemeProps
             [Tree.EComponent "Navbar" Navbar]]))
  = [[Tree.PSession; Tree.PTheme]].
Proof. reflexivity. Qed.

(** C7: the provider shell nests the theme provider around the identity
    provider, so under the root layout every component, the Navbar and
    whatever components the page content is made of, is rendered with both
    the theme context and the session context in scope, below the theme
    provider and, inside it, the identity provider.  The Navbar comes first
    and gets exactly the two providers' values; the document therefore
    always has a rendering, and for a page given as one component that
    rendering is the document computed by passing the contexts directly. *)
Theorem C7_both_contexts_reach_every_descendant
    (fonts : Fonts) (children : list Tree.Element) (page : View) (env : Env) :
  Forall (fun p => Tree.covered (snd p))
    (Tree.componentScopes env Tree.noScope (Tree.RootLayout fonts children))
  /\ hd_error
       (Tree.componentScopes env Tree.noScope (Tree.RootLayout fonts children))
     = Some ("Navbar",
             {| Tree.themeScope :=
                  Some (themeContext appThemeProps (hostScheme env)
                          (storage env));
                Tree.sessionScope := Some (observe (sessionCheck env));
                Tree.enclosing := [Tree.PTheme; Tree.PSession] |})
  /\ is_Some
       (Tree.render env Tree.noScope (Tree.RootLayout fonts children))
  /\ Tree.componentScopes env Tree.noScope
       (Tree.RootLayout fonts [Tree.EComponent "page" page])
     = [("Navbar",
         Tree.belowSession env
           (Tree.belowTheme appThemeProps env Tree.noScope));
        ("page",
         Tree.belowSession env
           (Tree.belowTheme appThemeProps env Tree.noScope))]
  /\ Tree.render env Tree.noScope
       (Tree.RootLayout fonts [Tree.EComponent "page" page])
     = Some (RootLayout fonts page env).
Proof.
  set (shell := Tree.belowSession env
                  (Tree.belowTheme appThemeProps env Tree.noScope)).
  assert (Hshell : Tree.covered shell).
  { repeat split; [now eexists | now eexists | now exists []]. }
  split; [| split; [reflexivity | split; [| split; [reflexivity |]]]].
  - unfold Tree.RootLayout, Tree.AppProviders.
    cbn [Tree.componentScopes map concat]. fold shell.
    rewrite !app_nil_r.
    constructor; [exact Hshell |].
    induction children as [| c cs IHcs]; cbn [map concat]; [constructor |].
    apply Forall_app.
    split; [now apply componentScopes_covered | exact IHcs].
  - unfold Tree.RootLayout, Tree.AppProviders.
    cbn [Tree.render map Tree.collect fold_right]. fold shell.
    destruct Hshell as (Ht & Hs & _).
    assert (H : is_Some
                  (Tree.collect (map (Tree.render env shell) children))).
    { apply collect_is_Some.
      induction children as [| c cs IHcs]; cbn [map]; constructor;
        [now apply render_in_scope | exact IHcs]. }
    destruct H as [ms Hms].
    rewrite Hms. subst shell. cbn. now eexists.
  - unfold Tree.RootLayout, Tree.AppProviders, RootLayout.
    rewrite AppProviders_children.
    cbn [Tree.render map Tree.collect fold_right Tree.themeScope
         Tree.sessionScope Tree.belowSession Tree.belowTheme].
    now rewrite !app_nil_r.
Qed.

(** ** The Navbar and the theme *)

(** C9: for every fixed session state and any two theme values, the Navbar
    renders identical markup: it reads [resolvedTheme] and does not use
    it. *)
Theorem C9_navbar_independent_of_theme
    (session : AuthSession) (t1 t2 : ThemeContext) :
  Navbar (ctxOf t1 session) = Navbar (ctxOf t2 session).
Proof. reflexivity. Qed.

(** C10: for every session state the Navbar mounts the theme toggle exactly
    once and outside the session slot, and shows the brand title there; for
    any two contexts the Navbar's markup outside the session slot is the
    same, so a change of session changes the slot only.  This holds for
    every answer of the session check, the inconclusive ones included. *)
Theorem C10_navbar_frame_outside_session_slot :
  (forall c : Ctx,
      mountsIn "ToggleTheme" (Navbar c) = 1
      /\ mountsIn "ToggleTheme" (outsideSlotsIn (Navbar c)) = 1
      /\ hasTextIn "Camply" (outsideSlotsIn (Navbar c)) = true)
  /\ (forall c1 c2 : Ctx,
        outsideSlotsIn (Navbar c1) = outsideSlotsIn (Navbar c2))
  /\ (forall env : Env,
        mountsIn "ToggleTheme" (AppProviders Navbar env) = 1).
Proof.
  assert (H : forall c : Ctx,
             mountsIn "ToggleTheme" (Navbar c) = 1
             /\ mountsIn "ToggleTheme" (outsideSlotsIn (Navbar c)) = 1
             /\ hasTextIn "Camply" (outsideSlotsIn (Navbar c)) = true).
  { intros c. unfold Navbar, SignedIn, SignedOut.
    now destruct (signedIn (sessionCtx c)). }
  split; [exact H | split].
  - intros c1 c2. unfold Navbar, SignedIn, SignedOut.
    now destruct (signedIn (sessionCtx c1)), (signedIn (sessionCtx c2)).
  - intros env. rewrite AppProviders_children. apply H.
Qed.

(** ** Composition of the page *)

Lemma mountsIn_app (name : string) (a b : list Markup) :
  mountsIn name (a ++ b) = mountsIn name a + mountsIn name b.
Proof. unfold mountsIn. now rewrite map_app, list_sum_app. Qed.

Lemma viewsIn_app (a b : list Markup) :
  viewsIn (a ++ b) = viewsIn a ++ viewsIn b.
Proof. unfold viewsIn. now rewrite map_app, concat_app. Qed.

Lemma hasTextIn_app (s : string) (a b : list Markup) :
  hasTextIn s (a ++ b) = hasTextIn s a || hasTextIn s b.
Proof. unfold hasTextIn. apply existsb_app. Qed.

Lemma mountsIn_host (name tag : string) (attrs : list (string * string))
    (cs : list Markup) :
  mountsIn name [Host tag attrs cs] = mountsIn name cs.
Proof. unfold mountsIn. simpl. apply Nat.add_0_r. Qed.

Lemma viewsIn_host (tag : string) (attrs : list (string * string))
    (cs : list Markup) :
  viewsIn [Host tag attrs cs] = viewsIn cs.
Proof. unfold viewsIn. cbn [map concat views]. apply app_nil_r. Qed.

Lemma hasTextIn_host (s tag : string) (attrs : list (string * string))
    (cs : list Markup) :
  hasTextIn s [Host tag attrs cs] = hasTextIn s cs.
Proof. unfold hasTextIn. cbn [existsb hasText]. apply orb_false_r. Qed.

Lemma RootLayout_mounts (fonts : Fonts) (children : View) (env : Env)
    (name : string) :
  mountsIn name (RootLayout fonts children env)
  = mountsIn name (Navbar (providedCtx env))
    + mountsIn name (children (providedCtx env)).
Proof.
  unfold RootLayout. rewrite AppProviders_children.
  rewrite !mountsIn_host, mountsIn_app. now rewrite mountsIn_host.
Qed.

Lemma RootLayout_views (fonts : Fonts) (children : View) (env : Env) :
  viewsIn (RootLayout fonts children env)
  = viewsIn (Navbar (providedCtx env)) ++ viewsIn (children (providedCtx env)).
Proof.
  unfold RootLayout. rewrite AppProviders_children.
  rewrite !viewsIn_host, viewsIn_app. now rewrite viewsIn_host.
Qed.

Lemma RootLayout_texts (fonts : Fonts) (children : View) (env : Env)
    (text : string) :
  hasTextIn text (RootLayout fonts children env)
  = hasTextIn text (Navbar (providedCtx env))
    || hasTextIn text (children (providedCtx env)).
Proof.
  unfold RootLayout. rewrite AppProviders_children.
  rewrite !hasTextIn_host, hasTextIn_app. now rewrite hasTextIn_host.
Qed.

Lemma signedIn_only (c1 c2 : Ctx) :
  signedIn (sessionCtx c1) = signedIn (sessionCtx c2) ->
  Navbar c1 = Navbar c2 /\ HeroSection c1 = HeroSection c2.
Proof.
  intros H. unfold HeroSection, Navbar, SignedIn, SignedOut. now rewrite H.
Qed.

Lemma HeroSection_mounts (c : Ctx) (name : string) :
  mountsIn name (HeroSection c)
  = (if signedIn (sessionCtx c) then 0
     else named "SignUpButton" name + named "Button" name).
Proof.
  unfold HeroSection, SignedOut, mountsIn, named.
  destruct (signedIn (sessionCtx c)); cbn -[String.eqb]; [reflexivity |].
  destruct (String.eqb "SignUpButton" name), (String.eqb "Button" name);
    reflexivity.
Qed.

Lemma Navbar_mounts (c : Ctx) (name : string) :
  mountsIn name (Navbar c)
  = (if signedIn (sessionCtx c) then named "UserButton" name
     else named "SignInButton" name + named "Button" name)
    + named "ToggleTheme" name.
Proof.
  unfold Navbar, SignedIn, SignedOut, mountsIn, named.
  destruct (signedIn (sessionCtx c)); cbn -[String.eqb].
  - destruct (String.eqb "UserButton" name), (String.eqb "ToggleTheme" name);
      reflexivity.
  - destruct (String.eqb "SignInButton" name), (String.eqb "Button" name),
             (String.eqb "ToggleTheme" name); reflexivity.
Qed.

(** X1: the layout adds the Navbar and nothing else: for any page content, the
    widgets, the session views and the texts of the document are those of
    the Navbar followed by those of the content, both rendered under the
    context the provider shell passes down. *)
Theorem RootLayout_adds_only_navbar
    (fonts : Fonts) (children : View) (env : Env) (name text : string) :
  mountsIn name (RootLayout fonts children env)
  = mountsIn name (Navbar (providedCtx env))
    + mountsIn name (children (providedCtx env))
  /\ viewsIn (RootLayout fonts children env)
     = viewsIn (Navbar (providedCtx env))
       ++ viewsIn (children (providedCtx env))
  /\ hasTextIn text (RootLayout fonts children env)
     = hasTextIn text (Navbar (providedCtx env))
       || hasTextIn text (children (providedCtx env)).
Proof.
  split; [apply RootLayout_mounts |].
  split; [apply RootLayout_views | apply RootLayout_texts].
Qed.

(** ** What the markup depends on *)

(** X2: the Navbar, the Hero and the home page are functions of the signed-in
    flag alone: two contexts that agree on it give the same markup, whatever
    the user's identity and whatever the theme. *)
Theorem components_depend_on_signed_in_only (c1 c2 : Ctx) :
  signedIn (sessionCtx c1) = signedIn (sessionCtx c2) ->
  Navbar c1 = Navbar c2
  /\ HeroSection c1 = HeroSection c2
  /\ Home c1 = Home c2.
Proof.
  intros H. destruct (signedIn_only c1 c2 H) as [Hnav Hhero].
  unfold Home. now rewrite Hnav, Hhero.
Qed.

Lemma components_depend_on_signed_in_only_witness :
  Navbar (ctxOf lightTheme alice) = Navbar (ctxOf darkTheme bob)
  /\ Home (ctxOf lightTheme alice) = Home (ctxOf darkTheme bob).
Proof.
  destruct (components_depend_on_signed_in_only
              (ctxOf lightTheme alice) (ctxOf darkTheme bob) eq_refl)
    as (Hnav & _ & Hhome).
  split; [exact Hnav | exact Hhome].
Defined.

(** ** Inventories *)


(** X5: every widget of the home page document is accounted for: for a
    signed-in session the document mounts the user button and the theme
    toggle, once each; for a signed-out session the sign-in trigger, the
    sign-up trigger, their two buttons and the theme toggle; never anything
    else.  The session views of the whole document all agree with the
    session, so exactly one kind of view is on the page. *)
Theorem home_page_inventory (fonts : Fonts) (env : Env) (name : string) :
  mountsIn name (RootLayout fonts Home env)
  = (if signedIn (sessionCtx (providedCtx env))
     then named "UserButton" name + named "ToggleTheme" name
     else named "SignInButton" name + named "SignUpButton" name
          + 2 * named "Button" name + named "ToggleTheme" name)
  /\ viewsIn (RootLayout fonts Home env)
     = (if signedIn (sessionCtx (providedCtx env))
        then [GSignedIn] else [GSignedOut; GSignedOut])
  /\ exactlyOneView (RootLayout fonts Home env).
Proof.
  unfold exactlyOneView, rendersView.
  rewrite RootLayout_mounts, RootLayout_views, Navbar_views, Navbar_mounts.
  unfold Home. rewrite mountsIn_host, viewsIn_host.
  rewrite HeroSection_mounts, HeroSection_views.
  destruct (signedIn (sessionCtx (providedCtx env))).
  - repeat split; lia.
  - repeat split; lia.
Qed.

(** X6: the visible labels of the home page document: the brand title, the
    headline and the paragraph are always there, and the labels of the two
    triggers, "Sign In" and "Get Started", are there exactly when the
    session is signed out. *)
Theorem home_page_labels (fonts : Fonts) (env : Env) :
  hasTextIn "Camply" (RootLayout fonts Home env) = true
  /\ hasTextIn heroHeadline (RootLayout fonts Home env) = true
  /\ hasTextIn heroParagraph (RootLayout fonts Home env) = true
  /\ hasTextIn "Sign In" (RootLayout fonts Home env)
     = negb (signedIn (sessionCtx (providedCtx env)))
  /\ hasTextIn "Get Started" (RootLayout fonts Home env)
     = negb (signedIn (sessionCtx (providedCtx env))).
Proof.
  rewrite !RootLayout_texts.
  unfold Home, HeroSection, Navbar, SignedIn, SignedOut.
  now destruct (signedIn (sessionCtx (providedCtx env))).
Qed.

(** X7: cutting the session slot out of the Hero (or of the home page) rendered
    for any session gives exactly what a signed-in visitor gets: the static
    copy and nothing more. *)
Theorem hero_outside_slot_is_signed_in_hero (c c' : Ctx) :
  signedIn (sessionCtx c') = true ->
  outsideSlotsIn (HeroSection c) = HeroSection c'
  /\ outsideSlotsIn (Home c) = Home c'.
Proof.
  intros H. unfold Home, HeroSection, SignedOut. rewrite H.
  now destruct (signedIn (sessionCtx c)).
Qed.

Lemma hero_outside_slot_is_signed_in_hero_witness :
  outsideSlotsIn (HeroSection (ctxOf lightTheme anonymous))
  = HeroSection (ctxOf darkTheme alice).
Proof.
  apply (hero_outside_slot_is_signed_in_hero
           (ctxOf lightTheme anonymous) (ctxOf darkTheme alice)).
  reflexivity.
Defined.

(** ** The body's class attribute *)

Lemma tokens_before_space (a r : string) :
  noSpace a = true -> tokens (a +:+ String " " r) = a :: tokens r.
Proof.
  induction a as [| c a IH]; intros H.
  - reflexivity.
  - cbn [noSpace] in H. apply andb_prop in H as [Hc Ha].
    change (String c a +:+ String " " r)
      with (String c (a +:+ String " " r)).
    cbn [tokens].
    destruct (isSpace c); [discriminate Hc |].
    now rewrite (IH Ha).
Qed.

Lemma nonempty_eqb (a : string) : a <> "" -> negb (String.eqb a "") = true.
Proof. intros H. now destruct a. Qed.

(** X8: whatever the page content, the document's body carries exactly three
    classes, in this order: the sans font's class, the mono font's class and
    [antialiased], provided each generated font class is a single class
    name (non-empty, without a space). *)
Theorem RootLayout_body_classes
    (fonts : Fonts) (children : View) (env : Env) :
  noSpace (geistSans_variable fonts) = true ->
  noSpace (geistMono_variable fonts) = true ->
  geistSans_variable fonts <> "" ->
  geistMono_variable fonts <> "" ->
  exists cls : string,
    bodyClassName (RootLayout fonts children env) = Some cls
    /\ classList cls
       = [geistSans_variable fonts; geistMono_variable fonts; "antialiased"].
Proof.
  intros Hs Hm Hse Hme.
  eexists. split; [reflexivity |].
  unfold classList.
  change (" " +:+ geistMono_variable fonts +:+ " antialiased")
    with (String " " (geistMono_variable fonts +:+ String " " "antialiased")).
  rewrite (tokens_before_space _ _ Hs), (tokens_before_space _ _ Hm).
  cbn [List.filter]. rewrite (nonempty_eqb _ Hse), (nonempty_eqb _ Hme).
  reflexivity.
Qed.

Lemma RootLayout_body_classes_witness :
  exists cls : string,
    bodyClassName (RootLayout sampleFonts Home unreachableEnv) = Some cls
    /\ classList cls
       = ["geist_sans_variable"; "geist_mono_variable"; "antialiased"].
Proof.
  apply (RootLayout_body_classes sampleFonts Home unreachableEnv);
    [reflexivity | reflexivity | discriminate | discriminate].
Defined.
